(** * sentry.tasks.check_alerts: rate alerts over per-minute counters

    A shallow embedding of [src/sentry/tasks/check_alerts.py] (Python 2,
    [from __future__ import division]) and the properties of its two tasks:
    the periodic [check_alerts], which fans out one evaluation per active
    counter row, and [check_project_alerts], which scores one project against
    its recent history.

    Python integers are [Z].  Python floats are IEEE 754 binary64 numbers; the
    programs are written once over an interface of the float operations they
    use ([Arith]) and read at two instances: [Binary64.arith], the kernel's
    primitive floats, which evaluates exactly as CPython does, and
    [Exact.arith], real numbers without rounding, for the algebra of the
    formulas.  Exceptions are an error monad ([result]); the calls the tasks
    make on their collaborators (the queue, the Alert model) are logged by a
    writer ([prog]). *)

From Stdlib Require Import ZArith List Bool String DecimalString Lia.
From Stdlib Require Import Floats.
From Stdlib Require Import Reals Lra Zfloor.
From Stdlib Require Import Permutation.
Import ListNotations.

Local Open Scope Z_scope.

(** ** Python runtime: exceptions and values *)

Module Py.

Inductive exn : Set :=
| ZeroDivisionError
| OverflowError
| ValueError.

Inductive result (A : Type) : Type :=
| Ok (a : A)
| Raise (e : exn).
Arguments Ok {A} a.
Arguments Raise {A} e.

Definition rbind {A B : Type} (m : result A) (k : A -> result B) : result B :=
  match m with
  | Ok a => k a
  | Raise e => Raise e
  end.

(** A loop [for a in xs: s = step(s, a)] whose body may raise. *)
Fixpoint foldM {S A : Type} (step : S -> A -> result S) (xs : list A) (s : S)
  : result S :=
  match xs with
  | [] => Ok s
  | a :: xs' => rbind (step s a) (foldM step xs')
  end.

(** The values a project option can hold here: [None] or an integer. *)
Inductive value : Set :=
| PyNone
| PyInt (z : Z).

(** Truth value testing: [None] and [0] are false. *)
Definition truthy (v : value) : bool :=
  match v with
  | PyNone => false
  | PyInt z => negb (z =? 0)
  end.

(** [v > n] for an integer [n].  Python 2 orders [None] below every number. *)
Definition gt_int (v : value) (n : Z) : bool :=
  match v with
  | PyNone => false
  | PyInt z => n <? z
  end.

(** ['%d' % n] for an integer. *)
Definition format_d (n : Z) : string := NilZero.string_of_int (Z.to_int n).

End Py.
Export Py.

Declare Scope result_scope.
Delimit Scope result_scope with result.
Notation "x <- m ;; k" := (rbind m (fun x => k))
  (at level 61, m at next level, right associativity) : result_scope.
Notation "' pat <- m ;; k" := (rbind m (fun x => match x with pat => k end))
  (at level 61, pat pattern, m at next level, right associativity) : result_scope.

(** ** Float arithmetic, as the tasks use it *)

Class Arith : Type := {
  num : Type;
  (** int to float, as [float(n)] and as the promotion of an int operand *)
  of_int : Z -> result num;
  fadd : num -> num -> num;
  fsub : num -> num -> num;
  fmul : num -> num -> num;
  (** true division; raises ZeroDivisionError *)
  fdiv : num -> num -> result num;
  (** [x ** 2]; raises OverflowError *)
  fsquare : num -> result num;
  (** [math.sqrt]; raises ValueError *)
  fsqrt : num -> result num;
  (** [int(x)], truncation toward zero *)
  to_int : num -> result Z;
  (** [x > n] for an int [n] *)
  fgt_int : num -> Z -> bool
}.

(** *** IEEE 754 binary64, CPython's float *)

Module Binary64.

(** Nearest-even rounding of an integer; OverflowError where it does not fit. *)
Definition of_int (z : Z) : result float :=
  let f := SF2Prim (binary_normalize prec emax z 0 false) in
  if is_infinity f then Raise OverflowError else Ok f.

Definition fdiv (x y : float) : result float :=
  if (y =? 0)%float then Raise ZeroDivisionError else Ok (x / y)%float.

(** [float_pow] reports a finite base whose power is infinite. *)
Definition fsquare (x : float) : result float :=
  let y := (x * x)%float in
  if is_finite x && is_infinity y then Raise OverflowError else Ok y.

Definition fsqrt (x : float) : result float :=
  if (x <? 0)%float then Raise ValueError else Ok (PrimFloat.sqrt x).

(** The integer part of [m * 2^e]. *)
Definition truncate (s : bool) (m : positive) (e : Z) : Z :=
  let a := match e with
           | Z0 => Zpos m
           | Zpos p => Z.shiftl (Zpos m) (Zpos p)
           | Zneg p => Z.shiftr (Zpos m) (Zpos p)
           end in
  if s then - a else a.

Definition to_int (x : float) : result Z :=
  match Prim2SF x with
  | S754_zero _ => Ok 0
  | S754_finite s m e => Ok (truncate s m e)
  | S754_infinity _ => Raise OverflowError
  | S754_nan => Raise ValueError
  end.

(** Float against int is compared exactly, without converting the int. *)
Definition fgt_int (x : float) (n : Z) : bool :=
  match Prim2SF x with
  | S754_zero _ => n <? 0
  | S754_finite s m e =>
      let v := if s then Zneg m else Zpos m in
      match e with
      | Z0 => n <? v
      | Zpos p => n <? Z.shiftl v (Zpos p)
      | Zneg p => Z.shiftl n (Zpos p) <? v
      end
  | S754_infinity s => negb s
  | S754_nan => false
  end.

Definition arith : Arith :=
  Build_Arith float of_int PrimFloat.add PrimFloat.sub PrimFloat.mul
    fdiv fsquare fsqrt to_int fgt_int.

(** The real number that a zero or a finite float stands for. *)
Definition SF2R (x : spec_float) : option R :=
  match x with
  | S754_zero _ => Some 0%R
  | S754_finite s m e =>
      Some (IZR (if s then Zneg m else Zpos m) * powerRZ 2 e)%R
  | _ => None
  end.

Definition B2R (x : float) : option R := SF2R (Prim2SF x).

End Binary64.

(** *** Real numbers: the same operations without rounding or overflow *)

Module Exact.

Definition fdiv (x y : R) : result R :=
  if Req_dec_T y 0 then Raise ZeroDivisionError else Ok (x / y)%R.

Definition fsqrt (x : R) : result R :=
  if Rlt_dec x 0 then Raise ValueError else Ok (sqrt x).

Definition truncate (x : R) : Z :=
  if Rle_dec 0 x then Zfloor x else Zceil x.

Definition fgt_int (x : R) (n : Z) : bool :=
  if Rlt_dec (IZR n) x then true else false.

Definition arith : Arith :=
  Build_Arith R (fun z => Ok (IZR z)) Rplus Rminus Rmult
    fdiv (fun x => Ok (x * x)%R) fsqrt (fun x => Ok (truncate x)) fgt_int.

End Exact.

(** ** Time *)

(** A datetime is a count of microseconds; so is a timedelta. *)
Definition datetime : Set := Z.
Definition timedelta : Set := Z.

Definition minutes (m : Z) : timedelta := m * 60 * 1000000.

(** The [seconds] attribute of a normalized timedelta: what is left of the
    duration after its whole days, in whole seconds ([0 <= seconds < 86400]). *)
Definition seconds (d : timedelta) : Z := (d mod 86400000000) / 1000000.

(** ** The collaborators *)

(** Modelled from the spec: the [ProjectCountByMinute] model is declared outside
    [src/]; by section 3 a counter bucket is a project, the start of its minute
    and one event count (the column the tasks read as [times_seen] and filter
    as [count]). *)
Record ProjectCountByMinute : Set := {
  project_id : Z;
  date : datetime;
  times_seen : Z
}.

(** What a task reads: the constant of [sentry.constants], the settings, the
    project options and the counter table. *)
Record env : Type := {
  MINUTE_NORMALIZATION : Z;
  DEFAULT_ALERT_PROJECT_THRESHOLD : value * value;
  project_alert_pct : Z -> option (value * value);
  counts : list ProjectCountByMinute
}.

(** What a task does to the outside: a call of [maybe_delay] on
    [check_project_alerts], or a call of [Alert.maybe_alert]. *)
Inductive effect : Set :=
| Delay (project_id : Z) (when : datetime) (count : Z) (expires : Z)
| MaybeAlert (project_id : Z) (message : string).

(** A task run: the calls made, in order, and how the run ended. *)
Definition prog (A : Type) : Type := list effect * result A.

Definition ret {A : Type} (a : A) : prog A := ([], Ok a).

Definition bind {A B : Type} (m : prog A) (k : A -> prog B) : prog B :=
  match m with
  | (out, Ok a) => let (out', r) := k a in (out ++ out', r)
  | (out, Raise e) => (out, Raise e)
  end.

Definition lift {A : Type} (r : result A) : prog A := ([], r).

Definition call (e : effect) : prog unit := ([e], Ok tt).

Declare Scope prog_scope.
Delimit Scope prog_scope with prog.
Notation "x <- m ;; k" := (bind m (fun x => k))
  (at level 61, m at next level, right associativity) : prog_scope.
Notation "' pat <- m ;; k" := (bind m (fun x => match x with pat => k end))
  (at level 61, pat pattern, m at next level, right associativity) : prog_scope.

(** [for x in xs: body(x)] *)
Fixpoint for_each {A : Type} (xs : list A) (body : A -> prog unit) : prog unit :=
  match xs with
  | [] => ret tt
  | x :: xs' => bind (body x) (fun _ => for_each xs' body)
  end.

(** Modelled from the spec: [maybe_delay] is [sentry.utils.queue]'s, outside
    [src/]; by section 4.1 it submits the call to the evaluation stage and does
    not wait for it. *)
Definition maybe_delay (project_id : Z) (when : datetime) (count expires : Z)
  : prog unit :=
  call (Delay project_id when count expires).

(** Modelled from the spec: [Alert.maybe_alert] is [sentry.models]', outside
    [src/]; section 4.5 makes it the single point that issues an alert. *)
Definition maybe_alert (project_id : Z) (message : string) : prog unit :=
  call (MaybeAlert project_id message).

(** ** The tasks *)

Section Tasks.

Context {A : Arith}.

Local Open Scope result_scope.

(** The data are integers: the first loop adds them as integers, and the
    division by [float(n)] makes the mean a float; from there on every
    operation is on floats, an integer operand being converted first. *)
Definition meanstdv (x : list Z) : result (num * num) :=
  let n := Z.of_nat (List.length x) in
  let mean := fold_left (fun mean a => mean + a) x 0 in
  fn <- of_int n ;;
  sum <- of_int mean ;;
  mean <- fdiv sum fn ;;
  zero <- of_int 0 ;;
  std <- foldM (fun std a =>
                  fa <- of_int a ;;
                  sq <- fsquare (fsub fa mean) ;;
                  Ok (fadd std sq)) x zero ;;
  fn1 <- of_int (n - 1) ;;
  var <- fdiv std fn1 ;;
  std <- fsqrt var ;;
  Ok (mean, std).

(** [int(count / ((delta.seconds + 1) / 60))], the expression of the loop of
    [check_alerts], as a function of the count and of [delta.seconds]. *)
Definition normalized_count (count secs : Z) : result Z :=
  s1 <- of_int (secs + 1) ;;
  sixty <- of_int 60 ;;
  mins <- fdiv s1 sixty ;;
  c <- of_int count ;;
  q <- fdiv c mins ;;
  to_int q.

(** The rows of the query of [check_alerts]: [date__gt] and [count__gt]. *)
Definition qs (e : env) (when : datetime) : list ProjectCountByMinute :=
  filter (fun r => (when - minutes (MINUTE_NORMALIZATION e) <? date r)
                   && (0 <? times_seen r))
         (counts e).

(** The option of the project, or the default of the settings. *)
Definition alert_option (e : env) (project : Z) : value * value :=
  match project_alert_pct e project with
  | Some option => option
  | None => DEFAULT_ALERT_PROJECT_THRESHOLD e
  end.

Definition intervals : Z := 8.

(** The historical data: the counts of the project's rows with
    [max_date <= date < min_date], in the order of the table. *)
Definition data (e : env) (project : Z) (when : datetime) : list Z :=
  let min_date := when - minutes (MINUTE_NORMALIZATION e) in
  let max_date := min_date - minutes (intervals * MINUTE_NORMALIZATION e) in
  map times_seen
      (filter (fun r => (project_id r =? project)
                        && (date r <? min_date)
                        && (max_date <=? date r))
              (counts e)).

(** [(mean + stddev * 2) / MINUTE_NORMALIZATION] over the historical data. *)
Definition previous (e : env) (x : list Z) : result num :=
  '(mean, stddev) <- meanstdv x ;;
  two <- of_int 2 ;;
  norm <- of_int (MINUTE_NORMALIZATION e) ;;
  fdiv (fadd mean (fmul stddev two)) norm.

(** [count / previous * 100] *)
Definition ratio (count : Z) (previous : num) : result num :=
  c <- of_int count ;;
  q <- fdiv c previous ;;
  hundred <- of_int 100 ;;
  Ok (fmul q hundred).

(** [ratio > threshold].  Python 2 orders [None] below every number. *)
Definition over (ratio : num) (threshold : value) : bool :=
  match threshold with
  | PyNone => true
  | PyInt t => fgt_int ratio t
  end.

(** The message; [%d] of a float is [%d] of its [int()]. *)
Definition message (previous : num) (count : Z) : result string :=
  shown <- to_int previous ;;
  Ok ("Rate of events per minute increased from " ++ format_d shown
        ++ " to " ++ format_d count)%string.

Local Open Scope prog_scope.

Definition check_alerts (e : env) (when : datetime) : prog unit :=
  for_each (qs e when) (fun r =>
    normalized_count <- lift (normalized_count (times_seen r)
                                               (seconds (when - date r))) ;;
    maybe_delay (project_id r) when normalized_count 120).

Definition check_project_alerts (e : env) (project : Z) (when : datetime)
    (count : Z) : prog unit :=
  let '(threshold, min_events) := alert_option e project in
  if negb (truthy threshold) && truthy min_events then ret tt else
  if gt_int min_events count then ret tt else
  let data := data e project when in
  if negb (Z.of_nat (List.length data) =? intervals) then ret tt else
  previous <- lift (previous e data) ;;
  ratio <- lift (ratio count previous) ;;
  if over ratio threshold then
    message <- lift (message previous count) ;;
    maybe_alert project message
  else ret tt.

End Tasks.

(** ** The formulas as the specification words them *)

Module Spec.


Definition total (l : list R) : R := fold_right Rplus 0%R l.

(** The sum of the elements over their number. *)
Definition sample_mean (x : list Z) : R :=
  (total (map IZR x) / INR (List.length x))%R.

(** The root of the sum of the squared deviations from the mean over [n - 1]. *)
Definition sample_stddev (x : list Z) : R :=
  sqrt (total (map (fun a => Rsqr (IZR a - sample_mean x)) x)
        / (INR (List.length x) - 1))%R.

End Spec.

(** ** Scenarios *)

Module Scenario.

Definition tick : datetime := minutes 1000.

(** One bucket of [project] every [m] minutes, the latest one [2 * m] minutes
    before the tick, with the given counts. *)
Fixpoint buckets (project m : Z) (k : Z) (cs : list Z)
  : list ProjectCountByMinute :=
  match cs with
  | [] => []
  | c :: cs' =>
      Build_ProjectCountByMinute project (tick - minutes (k * m)) c
        :: buckets project m (k + 1) cs'
  end.

Definition table (m : Z) (cs : list Z) : list ProjectCountByMinute :=
  buckets 1 m 2 cs.

Definition quiet : list Z := [10; 12; 9; 11; 10; 13; 10; 11].

(** A window of one minute, 150 percent over at least 5 events. *)
Definition minute_env : env :=
  Build_env 1 (PyInt 150, PyInt 5) (fun _ => None) (table 1 quiet).

(** No threshold and no floor. *)
Definition unset_env : env :=
  Build_env 15 (PyInt 0, PyInt 0) (fun _ => None)
    (table 15 [1; 1; 1; 1; 1; 1; 1; 1]).

(** No threshold, a floor of 25 events. *)
Definition floor_only_env : env :=
  Build_env 15 (PyInt 0, PyInt 25) (fun _ => None) (table 15 quiet).

(** The same default, and for project 1 an option without a threshold. *)
Definition option_env : env :=
  Build_env 15 (PyInt 500, PyInt 25)
    (fun project => if project =? 1 then Some (PyNone, PyInt 25) else None)
    (table 15 quiet).

(** Eight buckets in the lookback range, none of which saw an event. *)
Definition silent_env : env :=
  Build_env 15 (PyInt 500, PyInt 25) (fun _ => None)
    (table 15 [0; 0; 0; 0; 0; 0; 0; 0]).


(** The same with a threshold of 149 percent. *)
Definition eager_env : env :=
  Build_env 15 (PyInt 149, PyInt 3) (fun _ => None)
    (table 15 [30; 30; 30; 30; 30; 30; 30; 30]).

(** Seven buckets only. *)
Definition young_env : env :=
  Build_env 1 (PyInt 150, PyInt 5) (fun _ => None)
    (table 1 [10; 12; 9; 11; 10; 13; 10]).

(** Nine buckets in the lookback range. *)
Definition crowded_env : env :=
  Build_env 1 (PyInt 150, PyInt 5) (fun _ => None)
    (Build_ProjectCountByMinute 1 (tick - 150000000) 12 :: table 1 quiet).

(** A bucket opened 29.5 seconds before the tick, 40 events so far; an older
    one, an empty one and one of another project. *)
Definition open_env : env :=
  Build_env 1 (PyInt 150, PyInt 5) (fun _ => None)
    [ Build_ProjectCountByMinute 1 (tick - 29500000) 40;
      Build_ProjectCountByMinute 2 (tick - minutes 3) 9;
      Build_ProjectCountByMinute 3 (tick - 1000000) 0;
      Build_ProjectCountByMinute 4 (tick - 22000000) 23 ].

End Scenario.

(** ** The generator [fsteps] *)

(** [x <= y] between floats, which [fsteps] alone uses. *)
Class Compare (A : Arith) : Type := { fle : num -> num -> bool }.

Definition binary64_compare : Compare Binary64.arith :=
  Build_Compare Binary64.arith PrimFloat.leb.


(** Where a generator stands after the values it was asked for: it may have
    more, it has returned, or it has raised. *)
Inductive generator_state : Set :=
| Suspended
| StopIteration
| Failed (e : exn).

Section Steps.

Context {A : Arith} {C : Compare A}.

(** The loop of [fsteps], asked for [n] values. *)
Fixpoint fsteps_loop (n : nat) (start stop step : num)
  : list num * generator_state :=
  match n with
  | O => ([], Suspended)
  | S n' =>
      if fle start stop
      then let (values, state) := fsteps_loop n' (fadd start step) stop step in
           (start :: values, state)
      else ([], StopIteration)
  end.

(** The generator [fsteps(start, stop, steps)], its three arguments taken as
    floats, asked for [n] values: the body runs from the first request on,
    so that is where a division by zero is raised. *)
Definition fsteps (start stop steps : num) (n : nat)
  : list num * generator_state :=
  match n with
  | O => ([], Suspended)
  | S _ =>
      match fdiv (fsub stop start) steps with
      | Ok step => fsteps_loop n start stop step
      | Raise e => ([], Failed e)
      end
  end.

End Steps.

(** ** More scenarios *)

Module Cases.

(** The quiet project with a threshold and no floor. *)
Definition no_floor_env : env :=
  Build_env 1 (PyInt 150, PyInt 0) (fun _ => None)
    (Scenario.table 1 Scenario.quiet).

(** The steady project with a threshold of 100 percent. *)
Definition keen_env : env :=
  Build_env 15 (PyInt 100, PyInt 3) (fun _ => None)
    (Scenario.table 15 [30; 30; 30; 30; 30; 30; 30; 30]).

(** A bucket of another project, in the middle of the lookback range. *)
Definition stranger : ProjectCountByMinute :=
  Build_ProjectCountByMinute 2 (Scenario.tick - minutes 5) 1000.

End Cases.

(** The table of [e] with the row [r] put in before position [before]. *)
Definition insert_row (e : env) (before : nat) (r : ProjectCountByMinute) : env :=
  Build_env (MINUTE_NORMALIZATION e) (DEFAULT_ALERT_PROJECT_THRESHOLD e)
    (project_alert_pct e)
    (firstn before (counts e) ++ r :: skipn before (counts e)).

(** ** Vocabulary of the statements *)

(** The call that a tick at [when] makes for the row [r]: the evaluation of
    the row's project at the tick, with the normalized count and an expiry of
    120 seconds. *)
Definition submits {A : Arith} (when : datetime) (r : ProjectCountByMinute)
    (c : effect) : Prop :=
  exists n : Z,
    normalized_count (times_seen r) (seconds (when - date r)) = Ok n
    /\ c = Delay (project_id r) when n 120.

(** The integers from 0 up to [n], [n] excluded. *)
Definition upto (n : nat) : list Z := map Z.of_nat (seq 0 n).

(** On binary64, for one count and one number of seconds: the normalized count
    is the exact one or one below it, and the next second does not raise it. *)
Definition binary64_agrees (count secs : Z) : bool :=
  match normalized_count (A := Binary64.arith) count secs,
        normalized_count (A := Binary64.arith) count (secs + 1) with
  | Ok n, Ok n' =>
      (60 * count / (secs + 1) - 1 <=? n) && (n <=? 60 * count / (secs + 1))
      && (n' <=? n)
  | _, _ => false
  end.

(** * Properties *)

(** ** The two monads *)

Lemma bind_ret {A B : Type} (a : A) (k : A -> prog B) : bind (ret a) k = k a.
Proof. unfold bind, ret. destruct (k a) as [out r]. reflexivity. Qed.

Lemma bind_lift_ok {A B : Type} (a : A) (k : A -> prog B) :
  bind (lift (Ok a)) k = k a.
Proof. apply bind_ret. Qed.

Lemma bind_lift_raise {A B : Type} (x : exn) (k : A -> prog B) :
  bind (lift (Raise x)) k = ([], Raise x).
Proof. reflexivity. Qed.

Lemma bind_call {B : Type} (c : effect) (k : unit -> prog B) :
  bind (call c) k = (c :: fst (k tt), snd (k tt)).
Proof. unfold bind, call. destruct (k tt) as [out r]. reflexivity. Qed.

(** ** The guards of [check_project_alerts] *)

Section Guards.

Context {A : Arith}.
Variables (e : env) (project : Z) (when : datetime) (count : Z).

(** The body of the task once the option is read. *)
Lemma check_project_alerts_eq threshold min_events :
  alert_option e project = (threshold, min_events) ->
  check_project_alerts e project when count =
    if negb (truthy threshold) && truthy min_events then ret tt else
    if gt_int min_events count then ret tt else
    if negb (Z.of_nat (List.length (data e project when)) =? intervals)
    then ret tt else
    bind (lift (previous e (data e project when))) (fun previous =>
    bind (lift (ratio count previous)) (fun ratio =>
    if over ratio threshold
    then bind (lift (message previous count)) (maybe_alert project)
    else ret tt)).
Proof. intros H. unfold check_project_alerts. rewrite H. reflexivity. Qed.

(** C1, as amended: without a threshold (zero or unset) and with a floor
    that is set and not zero, the task returns at once: no alert, no
    notification, no error, whatever the count and the history. *)
Theorem check_project_alerts_without_threshold threshold min_events :
  alert_option e project = (threshold, min_events) ->
  truthy threshold = false ->
  truthy min_events = true ->
  check_project_alerts e project when count = ret tt.
Proof.
  intros Hopt Ht Hm.
  rewrite (check_project_alerts_eq _ _ Hopt), Ht, Hm. reflexivity.
Qed.

(** C4: when the lookback range does not hold exactly 8 data points, fewer
    or more, the task returns without an alert (and without an error). *)
Theorem check_project_alerts_insufficient_history :
  List.length (data e project when) <> 8%nat ->
  check_project_alerts e project when count = ret tt.
Proof.
  intros Hlen.
  destruct (alert_option e project) as [threshold min_events] eqn:Hopt.
  rewrite (check_project_alerts_eq _ _ Hopt).
  destruct (negb (truthy threshold) && truthy min_events); [reflexivity|].
  destruct (gt_int min_events count); [reflexivity|].
  replace (Z.of_nat (List.length (data e project when)) =? intervals) with false;
    [reflexivity|].
  symmetry. apply Z.eqb_neq. unfold intervals. lia.
Qed.

(** Past the three guards the run is the comparison with the history. *)
Lemma check_project_alerts_past_guards threshold min_events :
  alert_option e project = (threshold, min_events) ->
  truthy threshold = true ->
  gt_int min_events count = false ->
  List.length (data e project when) = 8%nat ->
  check_project_alerts e project when count =
    bind (lift (previous e (data e project when))) (fun previous =>
    bind (lift (ratio count previous)) (fun ratio =>
    if over ratio threshold
    then bind (lift (message previous count)) (maybe_alert project)
    else ret tt)).
Proof.
  intros Hopt Ht Hfloor Hlen.
  rewrite (check_project_alerts_eq _ _ Hopt), Ht, Hfloor, Hlen. reflexivity.
Qed.

End Guards.

(** A threshold of zero in the default of the settings. *)
Lemma check_project_alerts_without_threshold_witness :
  check_project_alerts (A := Binary64.arith) Scenario.floor_only_env 1
    Scenario.tick 80 = ret tt.
Proof.
  apply (check_project_alerts_without_threshold (A := Binary64.arith)
           Scenario.floor_only_env 1 Scenario.tick 80 (PyInt 0) (PyInt 25));
    reflexivity.
Defined.

(** A threshold that is unset in the option of the project. *)
Example check_project_alerts_unset_option :
  check_project_alerts (A := Binary64.arith) Scenario.option_env 1
    Scenario.tick 80 = ret tt.
Proof. vm_compute. reflexivity. Qed.

(** C1 as first stated fails: with neither a threshold nor a floor (both
    zero) the first guard does not return, and the run goes on to alert on
    any positive ratio. *)
Lemma check_project_alerts_unset_floor_alerts :
  ~ (forall (e : env) (project : Z) (when : datetime) (count : Z)
            (threshold min_events : value),
        alert_option e project = (threshold, min_events) ->
        truthy threshold = false ->
        fst (check_project_alerts (A := Binary64.arith) e project when count) = []).
Proof.
  intros H.
  specialize (H Scenario.unset_env 1 Scenario.tick 5 (PyInt 0) (PyInt 0)
                eq_refl eq_refl).
  vm_compute in H. discriminate H.
Qed.

(** Seven data points; and nine. *)
Lemma check_project_alerts_insufficient_history_witness :
  check_project_alerts (A := Binary64.arith) Scenario.young_env 1
    Scenario.tick 80 = ret tt.
Proof.
  apply (check_project_alerts_insufficient_history (A := Binary64.arith)
           Scenario.young_env 1 Scenario.tick 80).
  vm_compute. intros H. discriminate H.
Defined.

Example check_project_alerts_too_many_buckets :
  check_project_alerts (A := Binary64.arith) Scenario.crowded_env 1
    Scenario.tick 80 = ret tt.
Proof. vm_compute. reflexivity. Qed.

(** The option of the project when there is one, the default otherwise. *)
Lemma alert_option_project (e : env) (project : Z) (o : value * value) :
  project_alert_pct e project = Some o -> alert_option e project = o.
Proof. intros H. unfold alert_option. rewrite H. reflexivity. Qed.

Lemma alert_option_default (e : env) (project : Z) :
  project_alert_pct e project = None ->
  alert_option e project = DEFAULT_ALERT_PROJECT_THRESHOLD e.
Proof. intros H. unfold alert_option. rewrite H. reflexivity. Qed.

(** The two runs of the quiet project, a minute window and 150 percent over
    at least 5 events: 80 events a minute alert, 12 do not. *)
Example check_project_alerts_burst :
  check_project_alerts (A := Binary64.arith) Scenario.minute_env 1
    Scenario.tick 80
  = ([MaybeAlert 1 "Rate of events per minute increased from 13 to 80"], Ok tt).
Proof. vm_compute. reflexivity. Qed.

Example check_project_alerts_calm :
  check_project_alerts (A := Binary64.arith) Scenario.minute_env 1
    Scenario.tick 12 = ret tt.
Proof. vm_compute. reflexivity. Qed.

Section Decision.

Context {A : Arith}.
Variables (e : env) (project : Z) (when : datetime) (count : Z).

(** C8: a count strictly below the floor returns without an alert; a count
    equal to the floor (or above it) passes this check: unless the first
    guard has returned, the run goes on to the history and the comparison. *)
Theorem check_project_alerts_floor threshold floor :
  alert_option e project = (threshold, PyInt floor) ->
  (count < floor -> check_project_alerts e project when count = ret tt)
  /\ (floor <= count ->
      negb (truthy threshold) && truthy (PyInt floor) = false ->
      check_project_alerts e project when count =
        if negb (Z.of_nat (List.length (data e project when)) =? intervals)
        then ret tt else
        bind (lift (previous e (data e project when))) (fun previous =>
        bind (lift (ratio count previous)) (fun ratio =>
        if over ratio threshold
        then bind (lift (message previous count)) (maybe_alert project)
        else ret tt))).
Proof.
  intros Hopt. rewrite (check_project_alerts_eq _ _ _ _ _ _ Hopt). split.
  - intros Hlt. cbn [gt_int]. apply Z.ltb_lt in Hlt. rewrite Hlt.
    destruct (negb (truthy threshold) && truthy (PyInt floor)); reflexivity.
  - intros Hle Hfirst. rewrite Hfirst. cbn [gt_int].
    replace (count <? floor) with false; [reflexivity|].
    symmetry. apply Z.ltb_ge. exact Hle.
Qed.


End Decision.


(** The same ratio alerts on a threshold of 149. *)
Example check_project_alerts_just_over :
  check_project_alerts (A := Binary64.arith) Scenario.eager_env 1
    Scenario.tick 3
  = ([MaybeAlert 1 "Rate of events per minute increased from 2 to 3"], Ok tt).
Proof. vm_compute. reflexivity. Qed.

(** A count of 2 is below the floor of 3; a count of 3 is not, and alerts on
    the threshold of 149. *)
Lemma check_project_alerts_floor_witness :
  check_project_alerts (A := Binary64.arith) Scenario.eager_env 1
    Scenario.tick 2 = ret tt
  /\ check_project_alerts (A := Binary64.arith) Scenario.eager_env 1
       Scenario.tick 3
     = ([MaybeAlert 1 "Rate of events per minute increased from 2 to 3"], Ok tt).
Proof.
  split.
  - apply (proj1 (check_project_alerts_floor (A := Binary64.arith)
             Scenario.eager_env 1 Scenario.tick 2 (PyInt 149) 3 eq_refl)).
    reflexivity.
  - rewrite (proj2 (check_project_alerts_floor (A := Binary64.arith)
               Scenario.eager_env 1 Scenario.tick 3 (PyInt 149) 3 eq_refl)).
    + vm_compute. reflexivity.
    + lia.
    + reflexivity.
Defined.

(** ** A baseline of zero *)

(** The historical query filters on the project and the dates only: a row in
    the range is a data point whatever its count. *)
Lemma data_keeps_every_count (e : env) (project : Z) (when : datetime)
    (r : ProjectCountByMinute) :
  In r (counts e) ->
  project_id r = project ->
  when - minutes (MINUTE_NORMALIZATION e)
    - minutes (intervals * MINUTE_NORMALIZATION e) <= date r
    < when - minutes (MINUTE_NORMALIZATION e) ->
  In (times_seen r) (data e project when).
Proof.
  intros Hin Hp [Hge Hlt]. unfold data. apply in_map. apply filter_In.
  split; [exact Hin|].
  apply Z.eqb_eq in Hp. apply Z.ltb_lt in Hlt. apply Z.leb_le in Hge.
  rewrite Hp, Hlt, Hge. reflexivity.
Qed.

(** C2, on the code: with 8 data points that are all zero the baseline is
    [0.0], nothing guards the division, and the task ends in
    ZeroDivisionError. *)
Theorem check_project_alerts_zero_baseline_raises :
  previous (A := Binary64.arith) Scenario.silent_env
    (data Scenario.silent_env 1 Scenario.tick) = Ok 0%float
  /\ check_project_alerts (A := Binary64.arith) Scenario.silent_env 1
       Scenario.tick 30 = ([], Raise ZeroDivisionError).
Proof. split; vm_compute; reflexivity. Qed.

(** The same for any history on binary64: past the guards, a baseline that
    is zero ends the run in ZeroDivisionError. *)
Lemma check_project_alerts_zero_baseline_binary64 (e : env) (project : Z)
    (when : datetime) (count : Z) (threshold min_events : value) (p c : float) :
  alert_option e project = (threshold, min_events) ->
  truthy threshold = true ->
  gt_int min_events count = false ->
  List.length (data e project when) = 8%nat ->
  previous (A := Binary64.arith) e (data e project when) = Ok p ->
  (p =? 0)%float = true ->
  Binary64.of_int count = Ok c ->
  check_project_alerts (A := Binary64.arith) e project when count
  = ([], Raise ZeroDivisionError).
Proof.
  intros Hopt Ht Hfloor Hlen Hp H0 Hc.
  rewrite (check_project_alerts_past_guards _ _ _ _ _ _ Hopt Ht Hfloor Hlen).
  rewrite Hp, bind_lift_ok. unfold ratio.
  cbn [of_int fdiv Binary64.arith]. rewrite Hc. cbn [rbind].
  unfold Binary64.fdiv. rewrite H0. reflexivity.
Qed.

(** C10: the 8 empty buckets of the lookback range are 8 data points; their
    mean and deviation are zero, so is the expected rate, and the run is not
    skipped for want of history: it reaches [count / previous], where the
    division raises. *)
Theorem check_project_alerts_counts_empty_buckets :
  Forall (fun r => times_seen r = 0) (counts Scenario.silent_env)
  /\ data Scenario.silent_env 1 Scenario.tick = [0; 0; 0; 0; 0; 0; 0; 0]
  /\ meanstdv (A := Binary64.arith) (data Scenario.silent_env 1 Scenario.tick)
     = Ok (0%float, 0%float)
  /\ previous (A := Binary64.arith) Scenario.silent_env
       (data Scenario.silent_env 1 Scenario.tick) = Ok 0%float
  /\ ratio (A := Binary64.arith) 30 0%float = Raise ZeroDivisionError
  /\ check_project_alerts (A := Binary64.arith) Scenario.silent_env 1
       Scenario.tick 30 <> ret tt.
Proof.
  split; [repeat constructor|].
  repeat split; try (vm_compute; reflexivity).
  vm_compute. intros H. discriminate H.
Qed.


(** ** The tick *)


Lemma qs_spec (e : env) (when : datetime) (r : ProjectCountByMinute) :
  In r (qs e when) <->
  In r (counts e)
  /\ when - minutes (MINUTE_NORMALIZATION e) < date r
  /\ 0 < times_seen r.
Proof.
  unfold qs. rewrite filter_In, andb_true_iff, Z.ltb_lt, Z.ltb_lt. tauto.
Qed.

Section Tick.

Context {A : Arith}.
Variable when : datetime.

(** One turn of the loop: the row's count normalizes and its task is
    submitted, or the conversion raises and the loop ends there. *)
Lemma for_each_cons (r : ProjectCountByMinute) (rows : list ProjectCountByMinute)
    (body := fun r : ProjectCountByMinute =>
       bind (lift (normalized_count (times_seen r) (seconds (when - date r))))
            (fun n => maybe_delay (project_id r) when n 120)) :
  for_each (r :: rows) body =
    match normalized_count (times_seen r) (seconds (when - date r)) with
    | Ok n => (Delay (project_id r) when n 120 :: fst (for_each rows body),
               snd (for_each rows body))
    | Raise x => ([], Raise x)
    end.
Proof.
  cbn [for_each]. unfold body at 1.
  destruct (normalized_count (times_seen r) (seconds (when - date r))) as [n|x].
  - rewrite bind_lift_ok. unfold maybe_delay. rewrite bind_call. reflexivity.
  - reflexivity.
Qed.

(** The calls of the loop answer, one for one and in order, to the rows it
    went through; a loop that ends normally went through all of them. *)
Lemma for_each_submits (rows : list ProjectCountByMinute)
    (body := fun r : ProjectCountByMinute =>
       bind (lift (normalized_count (times_seen r) (seconds (when - date r))))
            (fun n => maybe_delay (project_id r) when n 120)) :
  exists done rest : list ProjectCountByMinute,
    rows = done ++ rest
    /\ Forall2 (submits when) done (fst (for_each rows body))
    /\ (snd (for_each rows body) = Ok tt -> rest = []).
Proof.
  induction rows as [|r rows IH].
  - exists [], []. repeat split. constructor.
  - unfold body. rewrite for_each_cons. fold body.
    destruct (normalized_count (times_seen r) (seconds (when - date r)))
      as [n|x] eqn:Hn.
    + destruct IH as (done & rest & Hrows & Hall & Hend).
      exists (r :: done), rest. simpl. split; [now rewrite Hrows|].
      split; [|exact Hend].
      constructor; [|exact Hall]. exists n. split; [exact Hn|reflexivity].
    + exists [], (r :: rows). simpl. repeat split; [constructor|discriminate].
Qed.

End Tick.


(** ** The normalized count in exact arithmetic *)

Lemma exact_fdiv_ok (x y : R) : y <> 0%R -> Exact.fdiv x y = Ok (x / y)%R.
Proof.
  intros Hy. unfold Exact.fdiv. destruct (Req_dec_T y 0) as [H0|_];
    [contradiction|reflexivity].
Qed.

(** The floor of a quotient of integers is their integer quotient. *)
Lemma Zfloor_div (a b : Z) : 0 < b -> Zfloor (IZR a / IZR b) = a / b.
Proof.
  intros Hb. apply Zfloor_eq.
  assert (HbR : (0 < IZR b)%R) by (apply IZR_lt; exact Hb).
  pose proof (Z.mul_div_le a b Hb) as Hlo.
  pose proof (Z.mul_succ_div_gt a b Hb) as Hhi.
  apply IZR_le in Hlo. apply IZR_lt in Hhi.
  rewrite mult_IZR in Hlo. rewrite mult_IZR, succ_IZR in Hhi.
  split.
  - apply Rmult_le_reg_r with (IZR b); [exact HbR|].
    unfold Rdiv. rewrite Rmult_assoc, Rinv_l, Rmult_1_r by lra. lra.
  - apply Rmult_lt_reg_r with (IZR b); [exact HbR|].
    unfold Rdiv at 1. rewrite Rmult_assoc, Rinv_l, Rmult_1_r by lra. lra.
Qed.





(** The run of the scenario on binary64: 80 for the first project; for the
    fourth, 23 events in 23 seconds come out as 59, one below the exact 60. *)
Example check_alerts_open_buckets :
  check_alerts (A := Binary64.arith) Scenario.open_env Scenario.tick
  = ([Delay 1 Scenario.tick 80 120; Delay 4 Scenario.tick 59 120], Ok tt).
Proof. vm_compute. reflexivity. Qed.



(** ** Mean and standard deviation *)

Lemma foldM_pure {S X : Type} (f : S -> X -> S) (xs : list X) (s : S) :
  foldM (fun s a => Ok (f s a)) xs s = Ok (fold_left f xs s).
Proof. revert s. induction xs as [|a xs IH]; intros s; simpl; [reflexivity|apply IH]. Qed.

Lemma fold_left_Zadd (x : list Z) (z : Z) :
  IZR (fold_left (fun mean a => mean + a) x z) = (IZR z + Spec.total (map IZR x))%R.
Proof.
  revert z. induction x as [|a x IH]; intros z; simpl.
  - lra.
  - rewrite IH, plus_IZR. lra.
Qed.

Lemma fold_left_Rplus (f : Z -> R) (x : list Z) (s : R) :
  fold_left (fun std a => (std + f a)%R) x s = (s + Spec.total (map f x))%R.
Proof.
  revert s. induction x as [|a x IH]; intros s; simpl.
  - lra.
  - rewrite IH. lra.
Qed.

Lemma total_nonneg (l : list R) : Forall (fun v => (0 <= v)%R) l -> (0 <= Spec.total l)%R.
Proof. induction 1; simpl; lra. Qed.

Lemma exact_fsqrt_ok (x : R) : (0 <= x)%R -> Exact.fsqrt x = Ok (sqrt x).
Proof.
  intros Hx. unfold Exact.fsqrt. destruct (Rlt_dec x 0) as [H0|_]; [lra|reflexivity].
Qed.



(** The history of the scenario: a mean of 10.75, exactly; on binary64 the
    deviation is the double nearest to the root of 11.5 / 7. *)
Example sample_mean_quiet : Spec.sample_mean Scenario.quiet = (43 / 4)%R.
Proof. unfold Spec.sample_mean, Spec.total. simpl. lra. Qed.

Example meanstdv_quiet_binary64 :
  meanstdv (A := Binary64.arith) Scenario.quiet
  = Ok (10.75%float, 0x1.48201af8e77fep+0%float).
Proof. vm_compute. reflexivity. Qed.

(** ** What the binary64 operations compute *)

Lemma powerRZ_2_pos (p : positive) : powerRZ 2 (Zpos p) = IZR (2 ^ Zpos p).
Proof.
  simpl powerRZ. rewrite pow_IZR, positive_nat_Z. reflexivity.
Qed.

Lemma powerRZ_2_gt0 (e : Z) : (0 < powerRZ 2 e)%R.
Proof. apply powerRZ_lt. lra. Qed.

Lemma binary64_fgt_int_spec (x : float) (n : Z) (v : R) :
  Binary64.B2R x = Some v -> (Binary64.fgt_int x n = true <-> (IZR n < v)%R).
Proof.
  unfold Binary64.B2R, Binary64.fgt_int. destruct (Prim2SF x) as [s|s| |s m e];
    cbn [Binary64.SF2R]; try discriminate; intros [= <-].
  - rewrite Z.ltb_lt. split; [apply IZR_lt | apply lt_IZR].
  - set (sv := if s then Z.neg m else Z.pos m). destruct e as [|p|p].
    + simpl powerRZ. rewrite Rmult_1_r, Z.ltb_lt. split; [apply IZR_lt | apply lt_IZR].
    + rewrite powerRZ_2_pos, <- mult_IZR, Z.shiftl_mul_pow2, Z.ltb_lt by lia.
      split; [apply IZR_lt | apply lt_IZR].
    + rewrite Z.shiftl_mul_pow2, Z.ltb_lt by lia.
      change (powerRZ 2 (Z.neg p)) with (/ powerRZ 2 (Z.pos p))%R.
      pose proof (powerRZ_2_gt0 (Z.pos p)) as Hpos.
      rewrite powerRZ_2_pos in *.
      split.
      * intros H. apply IZR_lt in H. rewrite mult_IZR in H.
        apply Rmult_lt_reg_r with (IZR (2 ^ Z.pos p)); [exact Hpos|].
        rewrite Rmult_assoc, Rinv_l, Rmult_1_r by lra. exact H.
      * intros H. apply lt_IZR. rewrite mult_IZR.
        apply Rmult_lt_compat_r with (r := IZR (2 ^ Z.pos p)) in H; [|exact Hpos].
        rewrite Rmult_assoc, Rinv_l, Rmult_1_r in H by lra. exact H.
Qed.


Lemma binary64_to_int_spec (x : float) (v : R) :
  Binary64.B2R x = Some v -> Binary64.to_int x = Ok (Exact.truncate v).
Proof.
  unfold Binary64.B2R, Binary64.to_int. destruct (Prim2SF x) as [s|s| |s m e];
    cbn [Binary64.SF2R]; try discriminate; intros [= <-].
  - unfold Exact.truncate. destruct (Rle_dec 0 0); [|lra]. now rewrite (ZfloorZ 0).
  - f_equal. unfold Binary64.truncate, Exact.truncate.
    pose proof (powerRZ_2_gt0 e) as Hpow.
    assert (Habs : (IZR (if s then Z.neg m else Z.pos m) * powerRZ 2 e
                    = (if s then -1 else 1) * (IZR (Z.pos m) * powerRZ 2 e))%R).
    { destruct s; [change (Z.neg m) with (- Z.pos m); rewrite opp_IZR|]; lra. }
    rewrite Habs.
    assert (Hfl : Zfloor (IZR (Z.pos m) * powerRZ 2 e) =
                  match e with
                  | 0 => Z.pos m
                  | Z.pos p => Z.shiftl (Z.pos m) (Z.pos p)
                  | Z.neg p => Z.shiftr (Z.pos m) (Z.pos p)
                  end).
    { destruct e as [|p|p].
      - simpl powerRZ. rewrite Rmult_1_r. apply ZfloorZ.
      - rewrite powerRZ_2_pos, <- mult_IZR, Z.shiftl_mul_pow2 by lia. apply ZfloorZ.
      - change (powerRZ 2 (Z.neg p)) with (/ powerRZ 2 (Z.pos p))%R.
        rewrite powerRZ_2_pos, Z.shiftr_div_pow2 by lia.
        apply (Zfloor_div (Z.pos m) (2 ^ Z.pos p)). lia. }
    assert (Hpos : (0 < IZR (Z.pos m) * powerRZ 2 e)%R).
    { apply Rmult_lt_0_compat; [apply IZR_lt; lia|exact Hpow]. }
    destruct s.
    + destruct (Rle_dec 0 (-1 * (IZR (Z.pos m) * powerRZ 2 e))) as [H|_]; [lra|].
      unfold Zceil. rewrite <- Hfl. f_equal. f_equal. lra.
    + destruct (Rle_dec 0 (1 * (IZR (Z.pos m) * powerRZ 2 e))) as [_|H]; [|lra].
      rewrite <- Hfl. f_equal. lra.
Qed.

Lemma binary64_to_int_finite (p : float) :
  (exists z, Binary64.to_int p = Ok z) <->
  (exists v, Binary64.B2R p = Some v).
Proof.
  unfold Binary64.to_int, Binary64.B2R. destruct (Prim2SF p); cbn [Binary64.SF2R]; split;
    intros [w Hw]; try discriminate; eauto.
Qed.

Lemma binary64_ratio_over_shows (count t : Z) (p r : float) :
  ratio (A := Binary64.arith) count p = Ok r ->
  Binary64.fgt_int r t = true ->
  0 <= t ->
  exists m, message (A := Binary64.arith) p count = Ok m.
Proof.
  intros Hr Hover Ht.
  assert (Hp : exists z, Binary64.to_int p = Ok z).
  { unfold ratio in Hr. cbn [of_int fdiv fmul Binary64.arith num] in Hr.
    destruct (Binary64.of_int count) as [c|x]; [|discriminate Hr].
    cbn [rbind] in Hr. unfold Binary64.fdiv in Hr.
    destruct (p =? 0)%float; [discriminate Hr|]. cbn [rbind] in Hr.
    replace (Binary64.of_int 100) with (Ok 100%float) in Hr
      by (vm_compute; reflexivity).
    cbn [rbind] in Hr. injection Hr as <-.
    unfold Binary64.fgt_int in Hover. rewrite mul_spec, div_spec in Hover.
    unfold Binary64.to_int.
    destruct (Prim2SF p) as [s|s| |s m e]; eauto; exfalso.
    - destruct (Prim2SF c) as [sc|sc| |sc mc ec]; vm_compute in Hover;
        try discriminate Hover; destruct t; discriminate || lia.
    - destruct (Prim2SF c) as [sc|sc| |sc mc ec]; vm_compute in Hover;
        discriminate Hover. }
  destruct Hp as [z Hz]. unfold message. cbn [to_int Binary64.arith].
  rewrite Hz. cbn [rbind]. eauto.
Qed.

(** On binary64, for the counts below 32 and each second of two minutes, the
    normalized count is within one of the exact one, and it does not increase
    with the seconds. *)
Example normalized_count_binary64_scan :
  forallb (fun count => forallb (binary64_agrees count) (upto 120)) (upto 32)
  = true.
Proof. vm_compute. reflexivity. Qed.

(** ** The decision at the two instances *)

(** On binary64, with a positive threshold: the run alerts exactly when the
    ratio is defined and over the threshold; the message always formats. *)
Corollary check_project_alerts_alerts_binary64 (e : env) (project : Z)
    (when : datetime) (count t : Z) (min_events : value) :
  alert_option e project = (PyInt t, min_events) ->
  0 < t ->
  gt_int min_events count = false ->
  List.length (data e project when) = 8%nat ->
  (exists m, check_project_alerts (A := Binary64.arith) e project when count
             = ([MaybeAlert project m], Ok tt))
  <-> (exists p r,
         previous (A := Binary64.arith) e (data e project when) = Ok p
         /\ ratio (A := Binary64.arith) count p = Ok r
         /\ Binary64.fgt_int r t = true).
Proof.
  intros Hopt Ht Hfloor Hlen.
  assert (Htruthy : truthy (PyInt t) = true).
  { simpl. apply negb_true_iff, Z.eqb_neq. lia. }
  rewrite (check_project_alerts_past_guards _ _ _ _ _ _ Hopt Htruthy Hfloor Hlen).
  split.
  - intros [m Hrun].
    destruct (previous e (data e project when)) as [p|x]; [|discriminate Hrun].
    rewrite bind_lift_ok in Hrun.
    destruct (ratio count p) as [r|x] eqn:Hr; [|discriminate Hrun].
    rewrite bind_lift_ok in Hrun.
    destruct (over r (PyInt t)) eqn:Hover; [|discriminate Hrun].
    exists p, r. auto.
  - intros (p & r & Hp & Hr & Hover).
    destruct (binary64_ratio_over_shows count t p r Hr Hover ltac:(lia)) as [m Hm].
    exists m. rewrite Hp, bind_lift_ok, Hr, bind_lift_ok.
    cbn [over fgt_int Binary64.arith]. rewrite Hover, Hm, bind_lift_ok.
    reflexivity.
Qed.



(** * Further properties of the module *)

(** ** What a run of [check_project_alerts] can do *)

(** X1: a run of [check_project_alerts] makes at most one call, to
    [Alert.maybe_alert] and for its own project, and only in a run that
    returns; a run that raises has called nothing, and no run submits a
    task. *)
Theorem check_project_alerts_calls (A : Arith) (e : env) (project : Z)
    (when : datetime) (count : Z) :
  check_project_alerts e project when count = ret tt
  \/ (exists x, check_project_alerts e project when count = ([], Raise x))
  \/ (exists m, check_project_alerts e project when count
                = ([MaybeAlert project m], Ok tt)).
Proof.
  destruct (alert_option e project) as [threshold min_events] eqn:Hopt.
  rewrite (check_project_alerts_eq _ _ _ _ _ _ Hopt).
  destruct (negb (truthy threshold) && truthy min_events); [now left|].
  destruct (gt_int min_events count); [now left|].
  destruct (negb (Z.of_nat (List.length (data e project when)) =? intervals));
    [now left|].
  destruct (previous e (data e project when)) as [p|x];
    [rewrite bind_lift_ok | right; left; exists x; reflexivity].
  destruct (ratio count p) as [r|x];
    [rewrite bind_lift_ok | right; left; exists x; reflexivity].
  destruct (over r threshold); [|now left].
  destruct (message p count) as [m|x];
    [rewrite bind_lift_ok | right; left; exists x; reflexivity].
  right; right. exists m. reflexivity.
Qed.

(** ** Rows that do not count *)

Lemma data_insert_row (e : env) (before : nat) (r : ProjectCountByMinute)
    (project : Z) (when : datetime) :
  project_id r <> project
  \/ when - minutes (MINUTE_NORMALIZATION e) <= date r
  \/ date r < when - minutes (MINUTE_NORMALIZATION e)
              - minutes (intervals * MINUTE_NORMALIZATION e) ->
  data (insert_row e before r) project when = data e project when.
Proof.
  intros Hout. unfold data. cbn [counts MINUTE_NORMALIZATION insert_row].
  rewrite <- (firstn_skipn before (counts e)) at 3.
  rewrite !filter_app, !map_app. f_equal. cbn [filter].
  replace ((project_id r =? project)
           && (date r <? when - minutes (MINUTE_NORMALIZATION e))
           && (when - minutes (MINUTE_NORMALIZATION e)
               - minutes (intervals * MINUTE_NORMALIZATION e) <=? date r))
    with false; [reflexivity|].
  symmetry. destruct Hout as [H|[H|H]].
  - apply Z.eqb_neq in H. rewrite H. reflexivity.
  - apply Z.ltb_ge in H. rewrite H. apply andb_false_iff. left. apply andb_false_r.
  - apply Z.leb_gt in H. rewrite H. apply andb_false_r.
Qed.

(** X2: a row of another project, a row inside the normalization window (not
    older than [MINUTE_NORMALIZATION] minutes) and a row older than the
    lookback range change nothing to the run, wherever they stand in the
    table. *)
Theorem check_project_alerts_insert_row (A : Arith) (e : env) (before : nat)
    (r : ProjectCountByMinute) (project : Z) (when : datetime) (count : Z) :
  project_id r <> project
  \/ when - minutes (MINUTE_NORMALIZATION e) <= date r
  \/ date r < when - minutes (MINUTE_NORMALIZATION e)
              - minutes (intervals * MINUTE_NORMALIZATION e) ->
  check_project_alerts (insert_row e before r) project when count
  = check_project_alerts e project when count.
Proof.
  intros Hout. unfold check_project_alerts.
  rewrite (data_insert_row e before r project when Hout). reflexivity.
Qed.

(** A bucket of project 2 among the history of project 1. *)
Lemma check_project_alerts_insert_row_witness :
  check_project_alerts (A := Binary64.arith)
    (insert_row Scenario.minute_env 3 Cases.stranger) 1 Scenario.tick 80
  = check_project_alerts (A := Binary64.arith) Scenario.minute_env 1
      Scenario.tick 80.
Proof.
  apply (check_project_alerts_insert_row Binary64.arith Scenario.minute_env 3
           Cases.stranger 1 Scenario.tick 80).
  left. simpl. lia.
Defined.

Example check_project_alerts_stranger_in_range :
  List.length (data (insert_row Scenario.minute_env 3 Cases.stranger) 2
                 Scenario.tick) = 1%nat
  /\ List.length (data (insert_row Scenario.minute_env 3 Cases.stranger) 1
                    Scenario.tick) = 8%nat.
Proof. split; vm_compute; reflexivity. Qed.

(** ** Counts, thresholds and floors on binary64 *)

Lemma binary64_zero_ratio (p r : float) (t : Z) :
  ratio (A := Binary64.arith) 0 p = Ok r -> 0 <= t ->
  Binary64.fgt_int r t = false.
Proof.
  intros Hr Ht. unfold ratio in Hr.
  cbn [of_int fdiv fmul Binary64.arith num] in Hr.
  replace (Binary64.of_int 0) with (Ok 0%float) in Hr by (vm_compute; reflexivity).
  cbn [rbind] in Hr. unfold Binary64.fdiv in Hr.
  destruct (p =? 0)%float; [discriminate Hr|]. cbn [rbind] in Hr.
  replace (Binary64.of_int 100) with (Ok 100%float) in Hr
    by (vm_compute; reflexivity).
  cbn [rbind] in Hr. injection Hr as <-.
  unfold Binary64.fgt_int. rewrite mul_spec, div_spec.
  destruct (Prim2SF p) as [s|s| |s m e]; vm_compute; try reflexivity;
    destruct t; try reflexivity; lia.
Qed.

(** X3: on binary64, with a threshold that is a number and not negative, a
    count of zero never alerts, whatever the history. *)
Theorem check_project_alerts_zero_count (e : env) (project : Z)
    (when : datetime) (t : Z) (min_events : value) :
  alert_option e project = (PyInt t, min_events) ->
  0 <= t ->
  fst (check_project_alerts (A := Binary64.arith) e project when 0) = [].
Proof.
  intros Hopt Ht.
  rewrite (check_project_alerts_eq _ _ _ _ _ _ Hopt).
  destruct (negb (truthy (PyInt t)) && truthy min_events); [reflexivity|].
  destruct (gt_int min_events 0); [reflexivity|].
  destruct (negb (Z.of_nat (List.length (data e project when)) =? intervals));
    [reflexivity|].
  destruct (previous e (data e project when)) as [p|x]; [|reflexivity].
  rewrite bind_lift_ok.
  destruct (ratio 0 p) as [r|x] eqn:Hr; [|reflexivity].
  rewrite bind_lift_ok. cbn [over fgt_int Binary64.arith].
  rewrite (binary64_zero_ratio p r t Hr) by lia. reflexivity.
Qed.

(** No floor, so that the count of zero reaches the comparison. *)
Lemma check_project_alerts_zero_count_witness :
  fst (check_project_alerts (A := Binary64.arith) Cases.no_floor_env 1
         Scenario.tick 0) = [].
Proof.
  apply (check_project_alerts_zero_count Cases.no_floor_env 1 Scenario.tick
           150 (PyInt 0)); [reflexivity|lia].
Defined.

Lemma binary64_fgt_int_antitone (x : float) (n n' : Z) :
  Binary64.fgt_int x n = true -> n' <= n -> Binary64.fgt_int x n' = true.
Proof.
  unfold Binary64.fgt_int. intros H Hle.
  destruct (Prim2SF x) as [s|s| |s m e]; try exact H.
  - apply Z.ltb_lt in H. apply Z.ltb_lt. lia.
  - destruct e as [|p|p]; apply Z.ltb_lt in H; apply Z.ltb_lt; try lia.
    rewrite Z.shiftl_mul_pow2 in * by lia.
    assert (0 < 2 ^ Z.pos p) by (apply Z.pow_pos_nonneg; lia). nia.
Qed.

Lemma previous_same_norm (A : Arith) (e e' : env) (x : list Z) :
  MINUTE_NORMALIZATION e' = MINUTE_NORMALIZATION e ->
  previous e' x = previous e x.
Proof. intros H. unfold previous. rewrite H. reflexivity. Qed.

Lemma data_same_counts (e e' : env) (project : Z) (when : datetime) :
  MINUTE_NORMALIZATION e' = MINUTE_NORMALIZATION e ->
  counts e' = counts e ->
  data e' project when = data e project when.
Proof. intros Hm Hc. unfold data. rewrite Hm, Hc. reflexivity. Qed.

(** X4: on binary64, an alert that is issued under a threshold is issued,
    with the same message, under every lower positive threshold, the table,
    the floor and the count being the same. *)
Theorem check_project_alerts_lower_threshold (e e' : env) (project : Z)
    (when : datetime) (count t t' : Z) (min_events : value) (m : string) :
  MINUTE_NORMALIZATION e' = MINUTE_NORMALIZATION e ->
  counts e' = counts e ->
  alert_option e project = (PyInt t, min_events) ->
  alert_option e' project = (PyInt t', min_events) ->
  0 < t' <= t ->
  check_project_alerts (A := Binary64.arith) e project when count
    = ([MaybeAlert project m], Ok tt) ->
  check_project_alerts (A := Binary64.arith) e' project when count
    = ([MaybeAlert project m], Ok tt).
Proof.
  intros Hm Hc Hopt Hopt' Ht.
  rewrite (check_project_alerts_eq _ _ _ _ _ _ Hopt),
          (check_project_alerts_eq _ _ _ _ _ _ Hopt').
  rewrite (data_same_counts e e' project when Hm Hc).
  rewrite (previous_same_norm _ e e' _ Hm).
  assert (Htruthy : forall z, 0 < z -> truthy (PyInt z) = true).
  { intros z Hz. simpl. apply negb_true_iff, Z.eqb_neq. lia. }
  rewrite (Htruthy t) by lia. rewrite (Htruthy t') by lia. cbn [negb andb].
  destruct (gt_int min_events count); [discriminate|].
  destruct (negb (Z.of_nat (List.length (data e project when)) =? intervals));
    [discriminate|].
  destruct (previous e (data e project when)) as [p|x]; [|discriminate].
  rewrite !bind_lift_ok.
  destruct (ratio count p) as [r|x]; [|discriminate].
  rewrite !bind_lift_ok. cbn [over fgt_int Binary64.arith].
  destruct (Binary64.fgt_int r t) eqn:Hover; [|discriminate].
  rewrite (binary64_fgt_int_antitone r t t' Hover) by lia.
  intros H. exact H.
Qed.

(** From 149 percent down to 100. *)
Lemma check_project_alerts_lower_threshold_witness :
  check_project_alerts (A := Binary64.arith) Cases.keen_env 1 Scenario.tick 3
  = ([MaybeAlert 1 "Rate of events per minute increased from 2 to 3"], Ok tt).
Proof.
  apply (check_project_alerts_lower_threshold Scenario.eager_env Cases.keen_env
           1 Scenario.tick 3 149 100 (PyInt 3));
    [reflexivity | reflexivity | reflexivity | reflexivity | lia
    | vm_compute; reflexivity].
Defined.

(** ** The run in exact arithmetic *)

Lemma meanstdv_exact_value (x : list Z) :
  (2 <= List.length x)%nat ->
  meanstdv (A := Exact.arith) x = Ok (Spec.sample_mean x, Spec.sample_stddev x).
Proof.
  intros Hlen. unfold meanstdv.
  cbn [of_int fdiv fsquare fsqrt fadd fsub Exact.arith rbind num].
  assert (Hn : (2 <= INR (List.length x))%R) by (apply (le_INR 2); exact Hlen).
  rewrite <- INR_IZR_INZ, minus_IZR, <- INR_IZR_INZ.
  rewrite exact_fdiv_ok by lra. cbn [rbind].
  rewrite fold_left_Zadd, Rplus_0_l.
  fold (Spec.sample_mean x).
  rewrite (foldM_pure (fun std a => (std + (IZR a - Spec.sample_mean x) * (IZR a - Spec.sample_mean x))%R)).
  cbn [rbind].
  rewrite (fold_left_Rplus (fun a => ((IZR a - Spec.sample_mean x) * (IZR a - Spec.sample_mean x))%R)), Rplus_0_l.
  rewrite exact_fdiv_ok by lra. cbn [rbind].
  rewrite exact_fsqrt_ok; [reflexivity|].
  apply Rmult_le_pos.
  - apply total_nonneg. apply Forall_forall. intros v Hv.
    apply in_map_iff in Hv. destruct Hv as (a & <- & _). apply Rle_0_sqr.
  - left. apply Rinv_0_lt_compat. lra.
Qed.

Lemma exact_fdiv_zero (x : R) : Exact.fdiv x 0 = Raise ZeroDivisionError.
Proof.
  unfold Exact.fdiv. destruct (Req_dec_T 0 0) as [_|H]; [reflexivity|contradiction].
Qed.

Lemma meanstdv_exact_short (x : list Z) :
  (List.length x < 2)%nat ->
  meanstdv (A := Exact.arith) x = Raise ZeroDivisionError.
Proof.
  intros Hlen. destruct x as [|a [|b x]]; [| |simpl in Hlen; lia].
  - unfold meanstdv. cbn. rewrite exact_fdiv_zero. reflexivity.
  - unfold meanstdv.
    cbn [of_int fdiv fsquare fsqrt fadd fsub Exact.arith rbind num List.length
         Z.of_nat Pos.of_succ_nat fold_left foldM].
    rewrite exact_fdiv_ok by lra. cbn [rbind foldM].
    change (1 - 1) with 0. rewrite exact_fdiv_zero. reflexivity.
Qed.

Lemma binary64_of_int_raises (z : Z) (x : exn) :
  Binary64.of_int z = Raise x -> x = OverflowError.
Proof.
  unfold Binary64.of_int.
  destruct (is_infinity (SF2Prim (binary_normalize prec emax z 0 false)));
    intros H; [injection H as <-; reflexivity | discriminate H].
Qed.

Lemma binary64_fdiv_one (x : float) : Binary64.fdiv x 1 = Ok (x / 1)%float.
Proof. reflexivity. Qed.

Lemma binary64_fdiv_zero (x : float) : Binary64.fdiv x 0 = Raise ZeroDivisionError.
Proof. reflexivity. Qed.

Lemma meanstdv_binary64_short (x : list Z) :
  (List.length x < 2)%nat ->
  meanstdv (A := Binary64.arith) x = Raise ZeroDivisionError
  \/ meanstdv (A := Binary64.arith) x = Raise OverflowError.
Proof.
  intros Hlen. destruct x as [|a [|b x]]; [| |simpl in Hlen; lia].
  - left. vm_compute. reflexivity.
  - unfold meanstdv.
    cbn [of_int fdiv fsquare fsqrt fadd fsub Binary64.arith num List.length
         Z.of_nat Pos.of_succ_nat fold_left foldM].
    replace (Binary64.of_int 1) with (Ok 1%float) by (vm_compute; reflexivity).
    change (1 - 1) with 0.
    replace (Binary64.of_int 0) with (Ok 0%float) by (vm_compute; reflexivity).
    cbn [rbind]. change (0 + a) with a.
    destruct (Binary64.of_int a) as [fa|e] eqn:Ha.
    2:{ right. rewrite (binary64_of_int_raises a e Ha). reflexivity. }
    cbn [rbind]. rewrite binary64_fdiv_one. cbn [rbind].
    unfold Binary64.fsquare.
    match goal with |- context [if ?c then Raise OverflowError else _] =>
      destruct c end; [right; reflexivity|].
    cbn [rbind]. rewrite binary64_fdiv_zero. left. reflexivity.
Qed.



Lemma total_permutation (l l' : list R) :
  Permutation l l' -> Spec.total l = Spec.total l'.
Proof. induction 1; simpl; lra. Qed.













(** ** More on [meanstdv] *)

(** X7: on fewer than two numbers [meanstdv] has no result: it raises
    ZeroDivisionError (on binary64, OverflowError when the one number does
    not fit a float). *)
Theorem meanstdv_short (x : list Z) :
  (List.length x < 2)%nat ->
  meanstdv (A := Exact.arith) x = Raise ZeroDivisionError
  /\ (meanstdv (A := Binary64.arith) x = Raise ZeroDivisionError
      \/ meanstdv (A := Binary64.arith) x = Raise OverflowError).
Proof.
  intros Hlen. split;
    [apply meanstdv_exact_short | apply meanstdv_binary64_short]; exact Hlen.
Qed.

Lemma meanstdv_short_witness :
  meanstdv (A := Exact.arith) [7] = Raise ZeroDivisionError
  /\ (meanstdv (A := Binary64.arith) [7] = Raise ZeroDivisionError
      \/ meanstdv (A := Binary64.arith) [7] = Raise OverflowError).
Proof. apply (meanstdv_short [7]). simpl. lia. Defined.



(** The sum of the first loop does not depend on the order. *)
Lemma fold_left_add_permutation (x y : list Z) :
  Permutation x y ->
  forall z, fold_left (fun mean a => mean + a) x z
            = fold_left (fun mean a => mean + a) y z.
Proof.
  induction 1 as [|a x y _ IH|a b x|x y w _ IH1 _ IH2]; intros z; simpl.
  - reflexivity.
  - apply IH.
  - f_equal. lia.
  - rewrite IH1. apply IH2.
Qed.

(** The mean that [meanstdv] returns is the quotient of the sum and of the
    number of the elements, each converted. *)
Lemma meanstdv_mean {A : Arith} (x : list Z) (mean stddev : num) :
  meanstdv x = Ok (mean, stddev) ->
  exists fn sum : num,
    of_int (Z.of_nat (List.length x)) = Ok fn
    /\ of_int (fold_left (fun mean a => mean + a) x 0) = Ok sum
    /\ fdiv sum fn = Ok mean.
Proof.
  unfold meanstdv. intros H.
  destruct (of_int (Z.of_nat (List.length x))) as [fn|] eqn:Hfn;
    [|discriminate H].
  cbn [rbind] in H.
  destruct (of_int (fold_left (fun mean a => mean + a) x 0)) as [sum|] eqn:Hsum;
    [|discriminate H].
  cbn [rbind] in H.
  destruct (fdiv sum fn) as [m|] eqn:Hm; [|discriminate H]. cbn [rbind] in H.
  destruct (of_int 0) as [zero|]; [|discriminate H]. cbn [rbind] in H.
  destruct (foldM _ x zero) as [std|]; [|discriminate H]. cbn [rbind] in H.
  destruct (of_int (Z.of_nat (List.length x) - 1)) as [fn1|]; [|discriminate H].
  cbn [rbind] in H.
  destruct (fdiv std fn1) as [var|]; [|discriminate H]. cbn [rbind] in H.
  destruct (fsqrt var) as [s|]; [|discriminate H]. cbn [rbind] in H.
  injection H as Hmean _. subst m. exists fn, sum. auto.
Qed.

(** X9: the order of the numbers does not matter to the mean, on any
    arithmetic (the sum is one of integers), nor, in exact arithmetic, to
    the whole result of [meanstdv]. *)
Theorem meanstdv_permutation (x y : list Z) :
  Permutation x y ->
  meanstdv (A := Exact.arith) x = meanstdv (A := Exact.arith) y
  /\ (forall (A : Arith) (mean stddev mean' stddev' : num),
        meanstdv x = Ok (mean, stddev) ->
        meanstdv y = Ok (mean', stddev') ->
        mean = mean').
Proof.
  intros Hp. pose proof (Permutation_length Hp) as Hlen. split.
  2:{ intros A m s m' s' Hx Hy.
      destruct (meanstdv_mean x m s Hx) as (fn & sum & Hfn & Hsum & Hm).
      destruct (meanstdv_mean y m' s' Hy) as (fn' & sum' & Hfn' & Hsum' & Hm').
      rewrite <- Hlen, Hfn in Hfn'. injection Hfn' as <-.
      rewrite <- (fold_left_add_permutation x y Hp 0), Hsum in Hsum'.
      injection Hsum' as <-. rewrite Hm in Hm'. injection Hm' as <-.
      reflexivity. }
  destruct (le_lt_dec 2 (List.length x)) as [H2|H2].
  - rewrite !meanstdv_exact_value by lia.
    assert (Hm : Spec.sample_mean x = Spec.sample_mean y).
    { unfold Spec.sample_mean. rewrite Hlen.
      rewrite (total_permutation _ _ (Permutation_map IZR Hp)). reflexivity. }
    unfold Spec.sample_stddev. rewrite Hm, Hlen.
    rewrite (total_permutation _ _
               (Permutation_map (fun a => Rsqr (IZR a - Spec.sample_mean y)) Hp)).
    reflexivity.
  - rewrite !meanstdv_exact_short by lia. reflexivity.
Qed.

Lemma meanstdv_permutation_witness :
  meanstdv (A := Exact.arith) Scenario.quiet
  = meanstdv (A := Exact.arith) (rev Scenario.quiet).
Proof.
  apply (proj1 (meanstdv_permutation Scenario.quiet (rev Scenario.quiet)
                  (Permutation_rev Scenario.quiet))).
Defined.

(** ** The tasks of a tick *)

(** X10: a tick submits at most one task for each row of its query, so at
    most as many as the table has rows, and when no row of the table is both
    recent and counted above zero it submits nothing and ends normally. *)
Theorem check_alerts_at_most (A : Arith) (e : env) (when : datetime) :
  (List.length (fst (check_alerts e when)) <= List.length (qs e when)
   <= List.length (counts e))%nat
  /\ ((forall r, In r (counts e) ->
         date r <= when - minutes (MINUTE_NORMALIZATION e)
         \/ times_seen r <= 0) ->
      check_alerts e when = ret tt).
Proof.
  split.
  - destruct (for_each_submits when (qs e when)) as (done & rest & Hqs & Hall & _).
    apply Forall2_length in Hall. unfold check_alerts. rewrite <- Hall. split.
    + rewrite Hqs, length_app. lia.
    + unfold qs. apply filter_length_le.
  - intros Hnone. unfold check_alerts.
    destruct (qs e when) as [|r rows] eqn:Hqs; [reflexivity|].
    assert (Hr : In r (qs e when)) by (rewrite Hqs; now left).
    apply qs_spec in Hr. destruct Hr as (Hin & Hdate & Hcount).
    destruct (Hnone r Hin); lia.
Qed.





(** ** What [fsteps] yields *)

Section StepsFacts.

Context {A : Arith} {C : Compare A}.

Lemma fsteps_loop_below (n : nat) (start stop step : num) :
  Forall (fun v => fle v stop = true) (fst (fsteps_loop n start stop step)).
Proof.
  revert start. induction n as [|n IH]; intros start; simpl; [constructor|].
  destruct (fle start stop) eqn:Hle; [|constructor].
  specialize (IH (fadd start step)).
  destruct (fsteps_loop n (fadd start step) stop step) as [values state].
  simpl in *. constructor; assumption.
Qed.

Lemma fsteps_loop_prefix (n k : nat) (start stop step : num) :
  fst (fsteps_loop n start stop step)
  = firstn n (fst (fsteps_loop (n + k) start stop step)).
Proof.
  revert start. induction n as [|n IH]; intros start; simpl; [reflexivity|].
  destruct (fle start stop); [|reflexivity].
  specialize (IH (fadd start step)).
  destruct (fsteps_loop n (fadd start step) stop step) as [values state].
  destruct (fsteps_loop (n + k) (fadd start step) stop step) as [values' state'].
  simpl in *. rewrite IH. reflexivity.
Qed.

(** X13: on any arithmetic, every value that [fsteps] yields passes the test
    of its loop ([value <= stop]); the first one is [start] itself; nothing is
    yielded when [start <= stop] fails; and the values asked for first are
    the first of those asked for later. *)
Theorem fsteps_values (start stop steps : num) (n : nat) :
  Forall (fun v => fle v stop = true) (fst (fsteps start stop steps n))
  /\ (forall step, fdiv (fsub stop start) steps = Ok step ->
        fle start stop = true ->
        hd_error (fst (fsteps start stop steps (S n))) = Some start)
  /\ (fle start stop = false -> fst (fsteps start stop steps n) = [])
  /\ (forall k,
        fst (fsteps start stop steps n)
        = firstn n (fst (fsteps start stop steps (n + k)))).
Proof.
  unfold fsteps. split; [|split; [|split]].
  - destruct n as [|n]; [constructor|].
    destruct (fdiv (fsub stop start) steps) as [step|e]; [|constructor].
    apply fsteps_loop_below.
  - intros step Hstep Hle. rewrite Hstep. simpl. rewrite Hle.
    destruct (fsteps_loop n (fadd start step) stop step). reflexivity.
  - intros Hle. destruct n as [|n]; [reflexivity|].
    destruct (fdiv (fsub stop start) steps) as [step|e]; [|reflexivity].
    simpl. rewrite Hle. reflexivity.
  - intros k. destruct n as [|n]; [reflexivity|]. cbn [Nat.add].
    destruct (fdiv (fsub stop start) steps) as [step|e]; [|reflexivity].
    apply (fsteps_loop_prefix (S n) k).
Qed.

End StepsFacts.

(** *** In exact arithmetic *)






(** On binary64 the rounding of the running sum can leave the last point
    out: ten steps from 1 to 2 yield ten values, the last one below 2. *)
Example fsteps_binary64_short :
  List.length (fst (fsteps (A := Binary64.arith) (C := binary64_compare)
                      1%float 2%float 10%float 20)) = 10%nat
  /\ snd (fsteps (A := Binary64.arith) (C := binary64_compare)
            1%float 2%float 10%float 20) = StopIteration.
Proof. split; vm_compute; reflexivity. Qed.




(** *** On binary64 *)

Lemma SFcompare_finite_refl (s : bool) (m : positive) (e : Z) :
  SFcompare (S754_finite s m e) (S754_finite s m e) = Some Eq.
Proof.
  simpl. rewrite Z.compare_refl.
  change (Pos.compare_cont Eq m m) with (Pos.compare m m).
  rewrite Pos.compare_refl. destruct s; reflexivity.
Qed.

(** A finite float or a zero minus itself is zero; zero over a finite divisor
    is zero; a float plus zero is the float (a zero plus zero is a zero). *)
Lemma binary64_step_zero (start steps : float) (s : bool) (m : positive) (e : Z) :
  Binary64.B2R start <> None ->
  Prim2SF steps = S754_finite s m e ->
  exists s', Prim2SF ((start - start) / steps)%float = S754_zero s'.
Proof.
  intros Hstart Hsteps. rewrite div_spec, sub_spec, Hsteps.
  unfold Binary64.B2R in Hstart.
  destruct (Prim2SF start) as [s0|s0| |s0 m0 e0]; cbn in Hstart;
    try (exfalso; apply Hstart; reflexivity).
  - destruct s0; eexists; reflexivity.
  - unfold SF64sub, SFsub. rewrite Z.sub_diag. eexists. reflexivity.
Qed.

Lemma binary64_loop_forever (start step : float) (s' : bool) :
  Binary64.B2R start <> None ->
  Prim2SF step = S754_zero s' ->
  forall (n : nat) (cur : float),
    (exists s, Prim2SF start = S754_zero s /\ exists t, Prim2SF cur = S754_zero t)
    \/ ((exists s m e, Prim2SF start = S754_finite s m e) /\ cur = start) ->
    snd (fsteps_loop (A := Binary64.arith) (C := binary64_compare) n cur start step)
      = Suspended
    /\ List.length (fst (fsteps_loop (A := Binary64.arith) (C := binary64_compare)
                           n cur start step)) = n
    /\ Forall (fun v => (v =? start)%float = true)
         (fst (fsteps_loop (A := Binary64.arith) (C := binary64_compare)
                 n cur start step)).
Proof.
  intros Hstart Hstep. induction n as [|n IH]; intros cur Hcur.
  - repeat split; constructor.
  - cbn [fsteps_loop].
    change (fle (Compare := binary64_compare) cur start) with (cur <=? start)%float.
    change (@fadd Binary64.arith cur step) with (cur + step)%float.
    assert (Hnext :
      (exists s, Prim2SF start = S754_zero s
                 /\ exists t, Prim2SF (cur + step)%float = S754_zero t)
      \/ ((exists s m e, Prim2SF start = S754_finite s m e)
          /\ (cur + step)%float = start)).
    { destruct Hcur as [(s & Hs & t & Ht)|[(s & m & e & Hs) ->]].
      - left. exists s. split; [exact Hs|].
        rewrite add_spec, Ht, Hstep. destruct t, s'; eexists; reflexivity.
      - right. split; [eauto|]. apply Prim2SF_inj.
        rewrite add_spec, Hs, Hstep. reflexivity. }
    assert (Hle : (cur <=? start)%float = true /\ (cur =? start)%float = true).
    { rewrite leb_spec, eqb_spec.
      destruct Hcur as [(s & Hs & t & Ht)|[(s & m & e & Hs) ->]].
      - rewrite Hs, Ht. split; reflexivity.
      - rewrite Hs. unfold SFleb, SFeqb. rewrite SFcompare_finite_refl.
        split; reflexivity. }
    destruct Hle as [Hle Heq]. rewrite Hle.
    destruct (IH (cur + step)%float Hnext) as (Hs & Hl & Hall).
    destruct (fsteps_loop (A := Binary64.arith) (C := binary64_compare) n
                (cur + step)%float start step) as [values state].
    simpl in *. repeat split; [exact Hs|now rewrite Hl|constructor; assumption].
Qed.

(** X16: on binary64, [fsteps(x, x, steps)] with a finite [x] and a finite
    number of steps that is not zero never returns: it yields a value equal to
    [x] as many times as it is asked. *)
Theorem fsteps_same_ends (start steps : float) (s : bool) (m : positive) (e : Z)
    (n : nat) :
  Binary64.B2R start <> None ->
  Prim2SF steps = S754_finite s m e ->
  snd (fsteps (A := Binary64.arith) (C := binary64_compare) start start steps n)
    = Suspended
  /\ List.length
       (fst (fsteps (A := Binary64.arith) (C := binary64_compare)
               start start steps n)) = n
  /\ Forall (fun v => (v =? start)%float = true)
       (fst (fsteps (A := Binary64.arith) (C := binary64_compare)
               start start steps n)).
Proof.
  intros Hstart Hsteps. unfold fsteps.
  destruct n as [|n]; [repeat split; constructor|].
  cbn [fdiv fsub Binary64.arith]. unfold Binary64.fdiv.
  assert (Hnz : (steps =? 0)%float = false).
  { rewrite eqb_spec, Hsteps. destruct s; reflexivity. }
  rewrite Hnz.
  destruct (binary64_step_zero start steps s m e Hstart Hsteps) as [s' Hstep].
  apply (binary64_loop_forever start _ s' Hstart Hstep).
  unfold Binary64.B2R in Hstart.
  destruct (Prim2SF start) as [s0|s0| |s0 m0 e0] eqn:Hs; cbn in Hstart;
    try (exfalso; apply Hstart; reflexivity).
  - left. exists s0. split; [reflexivity|]. exists s0. reflexivity.
  - right. split; [eauto|reflexivity].
Qed.

Lemma fsteps_same_ends_witness :
  snd (fsteps (A := Binary64.arith) (C := binary64_compare)
         1%float 1%float 4%float 5) = Suspended
  /\ List.length
       (fst (fsteps (A := Binary64.arith) (C := binary64_compare)
               1%float 1%float 4%float 5)) = 5%nat
  /\ Forall (fun v => (v =? 1)%float = true)
       (fst (fsteps (A := Binary64.arith) (C := binary64_compare)
               1%float 1%float 4%float 5)).
Proof.
  apply (fsteps_same_ends 1%float 4%float false 4503599627370496 (-50) 5).
  - unfold Binary64.B2R.
    replace (Prim2SF 1%float) with (S754_finite false 4503599627370496 (-52))
      by (vm_compute; reflexivity).
    discriminate.
  - vm_compute. reflexivity.
Defined.

(** A number of steps of zero fails at the first value asked for. *)
Example fsteps_zero_steps :
  fsteps (A := Binary64.arith) (C := binary64_compare) 0%float 1%float 0%float 3
  = ([], Failed ZeroDivisionError)
  /\ fsteps (A := Binary64.arith) (C := binary64_compare) 0%float 1%float
       0%float 0 = ([], Suspended).
Proof. split; reflexivity. Qed.
